(** * Tabs: a shallow embedding of packages/react/tabs/src/Tabs.tsx

    The four components (Tabs, TabsList, TabsTrigger, TabsContent) are
    modelled as functions from props (and the context found for them) to the
    element they return.  A void callback is modelled by the list of effects
    its run performs; React state is passed explicitly. *)

From Stdlib Require Import ZArith String List Bool Lia.
From stdpp Require Import base option gmap strings list fin_maps.

Local Open Scope string_scope.

(** ** Values that travel through props *)

(** What a component puts between its tags.  [NodeFalse] is the [false] that
    [cond && children] leaves behind and that React renders as nothing. *)
Inductive ReactNode : Type :=
  | NodeFalse
  | NodeText (s : string)
  | NodeElement (type : string) (child : ReactNode)
  | NodeSiblings (first rest : ReactNode).

Inductive AttrValue : Type :=
  | AUndefined
  | ABool (b : bool)
  | AStr (s : string)
  | ANum (n : Z)
  | ANode (n : ReactNode).

Inductive Orientation := horizontal | vertical.
Inductive Direction := ltr | rtl.
Inductive ActivationMode := automatic | manual.

#[global] Instance ActivationMode_eq_dec : EqDecision ActivationMode.
Proof. solve_decision. Defined.

Definition orientation_attr (o : option Orientation) : AttrValue :=
  match o with
  | Some horizontal => AStr "horizontal"
  | Some vertical => AStr "vertical"
  | None => AUndefined
  end.

Definition dir_attr (d : option Direction) : AttrValue :=
  match d with
  | Some ltr => AStr "ltr"
  | Some rtl => AStr "rtl"
  | None => AUndefined
  end.

(** A forwarded ref is only handed on, never read. *)
Definition Ref := option nat.

(** The props object of a JSX element is built left to right: an attribute
    written later wins, and a spread writes every key of the spread object. *)
Definition PropsObject := gmap string AttrValue.

Definition set_attr (k : string) (v : AttrValue) (o : PropsObject) : PropsObject :=
  <[k := v]> o.

Definition spread (rest : PropsObject) (o : PropsObject) : PropsObject :=
  rest ∪ o.

(** Modelled from the spec: removeTabsScopeProps is returned by
    createContextScope, which lives outside Tabs.tsx.  Section 6 of the
    spec calls everything but the named inputs of a unit a passthrough
    attribute.  The scope entries are not represented among the attributes
    of this model, so nothing is left to drop and the attributes pass. *)
Definition removeTabsScopeProps (rest : PropsObject) : PropsObject := rest.

(** ** Events *)

Record KeyboardEvent := { key : string }.
Record MouseEvent := { button : Z; ctrlKey : bool }.
(** The focus handler reads nothing from its event. *)
Inductive FocusEvent := focus_event.

(** ** Identifiers (lines 239-245) *)

Definition makeTriggerId (baseId value : string) : string :=
  baseId +:+ "-trigger-" +:+ value.

Definition makeContentId (baseId value : string) : string :=
  baseId +:+ "-content-" +:+ value.

(** ** Names *)

Definition TABS_NAME := "Tabs".
Definition TAB_LIST_NAME := "TabsList".
Definition TRIGGER_NAME := "TabsTrigger".
Definition CONTENT_NAME := "TabsContent".

(** ** Render errors and their monad *)

Inductive RenderError : Type :=
  | MustBeUsedWithin (consumerName rootComponentName : string).

Definition Render (A : Type) : Type := RenderError + A.

Definition render_bind {A B} (m : Render A) (k : A -> Render B) : Render B :=
  match m with
  | inl e => inl e
  | inr a => k a
  end.

Notation "'let*' x ':=' m 'in' k" := (render_bind m (fun x => k))
  (at level 10, x name, m at level 100, k at level 200, only parsing).

Section Descendants.

(** [Eff] is what one call of the context's [onValueChange] does; the
    descendants never look inside it.  [Caller E] is the type of the
    handlers a caller may pass for events of type [E]. *)
Context {Eff : Type} {Caller : Type -> Type}.

Record TabsContextValue := {
  baseId : string;
  ctx_value : option string;
  onValueChange : string -> Eff;
  orientation : option Orientation;
  dir : option Direction;
  activationMode : option ActivationMode
}.

(** Modelled from the spec: createTabsContext comes from createContextScope
    (package react-context), which is not part of Tabs.tsx.  Sections 6
    and 7 of the spec: a descendant rendered without an enclosing Root
    raises, at render time, an error naming the misused unit and the
    expected provider.  [found] is what the scoped lookup yields for the
    props of the consumer. *)
Definition createTabsContext (rootComponentName : string)
    (consumerName : string) (found : option TabsContextValue)
    : Render TabsContextValue :=
  match found with
  | Some context => inr context
  | None => inl (MustBeUsedWithin consumerName rootComponentName)
  end.

(** Line 33. *)
Definition useTabsContext := createTabsContext TABS_NAME.

(** Modelled from the spec: useCallbackRef (package react-use-callback-ref)
    is not part of Tabs.tsx; section 4.3 describes handleTabChange as the
    call of the context's change notification with [value], so the wrapper
    runs the callback it was given. *)
Definition useCallbackRef {A B} (callback : A -> B) : A -> B := callback.

(** composeEventHandlers (package primitive) is not part of Tabs.tsx and is
    left uninterpreted: a composed handler is kept as the two handlers it
    was built from, the caller's and the component's own. *)
Inductive EventHandler (E : Type) : Type :=
  | composeEventHandlers (originalEventHandler : option (Caller E))
                         (ourEventHandler : E -> list Eff).
Arguments composeEventHandlers {E}.

Definition originalEventHandler {E} (h : EventHandler E) : option (Caller E) :=
  match h with composeEventHandlers original _ => original end.

Definition ourEventHandler {E} (h : EventHandler E) : E -> list Eff :=
  match h with composeEventHandlers _ ours => ours end.

(** The element [Primitive.div] is handed. *)
Record PrimitiveDiv := {
  attrs : PropsObject;
  ref : Ref;
  onKeyDown : option (EventHandler KeyboardEvent);
  onMouseDown : option (EventHandler MouseEvent);
  onFocus : option (EventHandler FocusEvent);
  children : option ReactNode
}.

(** The wrappers of the roving focus group (package react-roving-focus, not
    part of Tabs.tsx) with the props TabsList and TabsTrigger write on them; the scope
    props spread onto them come from useRovingFocusGroupScope and are written
    before, so they replace none of these. *)
Record RovingFocusGroupRoot := {
  root_asChild : bool;
  root_orientation : option Orientation;
  root_dir : option Direction;
  root_loop : bool;
  root_child : PrimitiveDiv
}.

Record RovingFocusGroupItem := {
  item_asChild : bool;
  item_focusable : bool;
  item_active : bool;
  item_child : PrimitiveDiv
}.

(** [value === context.value] (lines 152 and 216). *)
Definition isSelected (value : string) (context : TabsContextValue) : bool :=
  bool_decide (ctx_value context = Some value).

Definition data_state (selected : bool) : AttrValue :=
  if selected then AStr "active" else AStr "inactive".

(** *** TabsList (lines 109-129) *)

Record TabsListProps := {
  list_loop : option bool;
  listProps : PropsObject
}.

Definition TabsList (found : option TabsContextValue) (props : TabsListProps)
    (forwardedRef : Ref) : Render RovingFocusGroupRoot :=
  let loop := default true (list_loop props) in
  let* context := useTabsContext TAB_LIST_NAME found in
  inr {| root_asChild := true;
         root_orientation := orientation context;
         root_dir := dir context;
         root_loop := loop;
         root_child :=
           {| attrs :=
                spread (removeTabsScopeProps (listProps props))
                  (set_attr "dir" (dir_attr (dir context))
                    (set_attr "role" (AStr "tablist") ∅));
              ref := forwardedRef;
              onKeyDown := None;
              onMouseDown := None;
              onFocus := None;
              children := None |} |}.

(** *** TabsTrigger (lines 145-195) *)

Record TabsTriggerProps := {
  trigger_value : string;
  trigger_disabled : option bool;
  trigger_onKeyDown : option (Caller KeyboardEvent);
  trigger_onMouseDown : option (Caller MouseEvent);
  trigger_onFocus : option (Caller FocusEvent);
  triggerProps : PropsObject
}.

Definition TabsTrigger (found : option TabsContextValue)
    (props : TabsTriggerProps) (forwardedRef : Ref)
    : Render RovingFocusGroupItem :=
  let value := trigger_value props in
  let disabled := default false (trigger_disabled props) in
  let* context := useTabsContext TRIGGER_NAME found in
  let triggerId := makeTriggerId (baseId context) value in
  let contentId := makeContentId (baseId context) value in
  let isSelected := isSelected value context in
  let handleTabChange :=
    useCallbackRef (fun _ : unit => [onValueChange context value]) in
  inr {| item_asChild := true;
         item_focusable := negb disabled;
         item_active := isSelected;
         item_child :=
           {| attrs :=
                spread (removeTabsScopeProps (triggerProps props))
                  (set_attr "id" (AStr triggerId)
                  (set_attr "data-disabled"
                     (if disabled then AStr "" else AUndefined)
                  (set_attr "data-state" (data_state isSelected)
                  (set_attr "aria-disabled"
                     (if disabled then ABool true else AUndefined)
                  (set_attr "aria-controls" (AStr contentId)
                  (set_attr "aria-selected" (ABool isSelected)
                  (set_attr "role" (AStr "tab") ∅)))))));
              ref := forwardedRef;
              onKeyDown :=
                Some (composeEventHandlers (trigger_onKeyDown props)
                  (fun event =>
                     if negb disabled
                        && (String.eqb (key event) " "
                            || String.eqb (key event) "Enter")
                     then handleTabChange tt
                     else []));
              onMouseDown :=
                Some (composeEventHandlers (trigger_onMouseDown props)
                  (fun event =>
                     if negb disabled && Z.eqb (button event) 0
                        && Bool.eqb (ctrlKey event) false
                     then handleTabChange tt
                     else []));
              onFocus :=
                Some (composeEventHandlers (trigger_onFocus props)
                  (fun _ =>
                     let isAutomaticActivation :=
                       negb (bool_decide (activationMode context = Some manual)) in
                     if negb isSelected && negb disabled
                        && isAutomaticActivation
                     then handleTabChange tt
                     else []));
              children := None |} |}.

(** *** TabsContent (lines 210-233) *)

Record TabsContentProps := {
  content_value : string;
  content_children : ReactNode;
  contentProps : PropsObject
}.

Definition TabsContent (found : option TabsContextValue)
    (props : TabsContentProps) (forwardedRef : Ref) : Render PrimitiveDiv :=
  let value := content_value props in
  let children := content_children props in
  let* context := useTabsContext CONTENT_NAME found in
  let triggerId := makeTriggerId (baseId context) value in
  let contentId := makeContentId (baseId context) value in
  let isSelected := isSelected value context in
  inr {| attrs :=
           spread (removeTabsScopeProps (contentProps props))
             (set_attr "tabIndex" (ANum 0)
             (set_attr "id" (AStr contentId)
             (set_attr "hidden" (ABool (negb isSelected))
             (set_attr "aria-labelledby" (AStr triggerId)
             (set_attr "role" (AStr "tabpanel")
             (set_attr "data-orientation"
                (orientation_attr (orientation context))
             (set_attr "data-state" (data_state isSelected) ∅)))))));
         ref := forwardedRef;
         onKeyDown := None;
         onMouseDown := None;
         onFocus := None;
         children := Some (if isSelected then children else NodeFalse) |}.

(** The panels, among those mounted under one context, for which
    [isSelected] holds. *)
Definition selected_panels (context : TabsContextValue)
    (panels : list TabsContentProps) : list TabsContentProps :=
  filter (fun p => isSelected (content_value p) context = true) panels.

End Descendants.

Arguments TabsContextValue : clear implicits.
Arguments EventHandler : clear implicits.
Arguments PrimitiveDiv : clear implicits.
Arguments RovingFocusGroupRoot : clear implicits.
Arguments RovingFocusGroupItem : clear implicits.
Arguments TabsTriggerProps : clear implicits.
Arguments TabsContentProps : clear implicits.
Arguments TabsListProps : clear implicits.

(** ** Tabs (lines 60-94) *)

Section Root.

(** [OwnerEff] is what one call of the owner's [onValueChange] does. *)
Context {OwnerEff : Type} {Caller : Type -> Type}.

(** Calling an optional callback: nothing happens when it was not given. *)
Definition invoke {T} (callback : option (T -> OwnerEff)) (arg : T)
    : list OwnerEff :=
  match callback with
  | Some f => [f arg]
  | None => []
  end.

(** A call of a state setter, run against the state cell of the instance:
    it leaves the next content of the cell and the owner callbacks it
    made. *)
Definition SetState (T : Type) : Type := option T -> option T * list OwnerEff.

(** Modelled from the spec: useControllableState (package
    react-use-controllable-state) is not part of Tabs.tsx.  Section 4.1 of
    the spec: an external value, when supplied, is authoritative and a
    change request only invokes the notification callback; without one, an
    internal cell is mutated and the same callback is invoked.  Section 3:
    the cell is seeded from the optional initial value. *)
Definition useControllableState_seed {T} (defaultProp : option T) : option T :=
  defaultProp.

Definition useControllableState {T} (prop : option T)
    (onChange : option (T -> OwnerEff)) (cell : option T)
    : option T * (T -> SetState T) :=
  let value := match prop with Some external => Some external | None => cell end in
  let setValue (nextValue : T) : SetState T :=
    fun current =>
      match prop with
      | Some _ => (current, invoke onChange nextValue)
      | None => (Some nextValue, invoke onChange nextValue)
      end in
  (value, setValue).

Record TabsProps := {
  tabs_value : option string;
  tabs_onValueChange : option (string -> OwnerEff);
  tabs_defaultValue : option string;
  tabs_orientation : option Orientation;
  tabs_dir : option Direction;
  tabs_activationMode : option ActivationMode;
  tabsProps : PropsObject
}.

(** What the hooks of one mounted Tabs keep between renders: the result of
    useId and the cell of useControllableState. *)
Record TabsHooks := {
  useId_cell : string;
  useState_cell : option string
}.

(** First render: [freshId] is what useId (package react-id, not part of
    Tabs.tsx) hands out for the new instance. *)
Definition Tabs_mount (freshId : string) (props : TabsProps) : TabsHooks :=
  {| useId_cell := freshId;
     useState_cell := useControllableState_seed (tabs_defaultValue props) |}.

Record TabsProvider := {
  provided : TabsContextValue (SetState string);
  provider_child : PrimitiveDiv (SetState string) Caller
}.

Definition Tabs (props : TabsProps) (hooks : TabsHooks) (forwardedRef : Ref)
    : TabsProvider :=
  let valueProp := tabs_value props in
  let onValueChange := tabs_onValueChange props in
  let defaultValue := tabs_defaultValue props in
  let orientation := default horizontal (tabs_orientation props) in
  let dir := default ltr (tabs_dir props) in
  let activationMode := default automatic (tabs_activationMode props) in
  let '(value, setValue) :=
    useControllableState valueProp onValueChange (useState_cell hooks) in
  {| provided :=
       {| baseId := useId_cell hooks;
          ctx_value := value;
          onValueChange := setValue;
          orientation := Some orientation;
          dir := Some dir;
          activationMode := Some activationMode |};
     provider_child :=
       {| attrs :=
            spread (removeTabsScopeProps (tabsProps props))
              (set_attr "data-orientation" (orientation_attr (Some orientation)) ∅);
          ref := forwardedRef;
          onKeyDown := None;
          onMouseDown := None;
          onFocus := None;
          children := None |} |}.

(** The state setter calls one handler run made, applied in order to the
    cell of the instance. *)
Fixpoint run_setters (calls : list (SetState string)) (cell : option string)
    : option string * list OwnerEff :=
  match calls with
  | [] => (cell, [])
  | call :: rest =>
      let '(cell1, notified1) := call cell in
      let '(cell2, notified2) := run_setters rest cell1 in
      (cell2, (notified1 ++ notified2)%list)
  end.

Definition dispatch (hooks : TabsHooks) (calls : list (SetState string))
    : TabsHooks * list OwnerEff :=
  let '(cell, notified) := run_setters calls (useState_cell hooks) in
  ({| useId_cell := useId_cell hooks; useState_cell := cell |}, notified).

End Root.

Arguments TabsProps : clear implicits.
Arguments TabsProvider : clear implicits.
Arguments SetState : clear implicits.

(** ** Instances the facts below are run on *)

(** No handler of the caller's own: the type of such handlers is left open. *)
Definition NoCaller (E : Type) : Type := unit.

(** A context of instance "x1" whose change callback hands back the value it
    was called with, so that a run lists the values requested. *)
Definition context_x1 (selection : option string) (mode : option ActivationMode)
    : TabsContextValue string :=
  {| baseId := "x1";
     ctx_value := selection;
     onValueChange := fun value => value;
     orientation := Some horizontal;
     dir := Some ltr;
     activationMode := mode |}.

Definition trigger_props (value : string) (disabled : option bool)
    (rest : PropsObject) : TabsTriggerProps NoCaller :=
  {| trigger_value := value;
     trigger_disabled := disabled;
     trigger_onKeyDown := None;
     trigger_onMouseDown := None;
     trigger_onFocus := None;
     triggerProps := rest |}.

Definition content_props (value : string) (children : ReactNode)
    (rest : PropsObject) : TabsContentProps :=
  {| content_value := value;
     content_children := children;
     contentProps := rest |}.

(** A Root whose owner callback hands back the value it was called with. *)
Definition tabs_props (value defaultValue : option string) : TabsProps string :=
  {| tabs_value := value;
     tabs_onValueChange := Some (fun value => value);
     tabs_defaultValue := defaultValue;
     tabs_orientation := None;
     tabs_dir := None;
     tabs_activationMode := None;
     tabsProps := ∅ |}.

(** * Facts *)

(** ** Props objects *)

Lemma lookup_spread (rest o : PropsObject) (k : string) :
  spread rest o !! k =
  match rest !! k with
  | Some v => Some v
  | None => o !! k
  end.
Proof.
  unfold spread. destruct (rest !! k) as [v|] eqn:Hk.
  - by apply lookup_union_Some_l.
  - by apply lookup_union_r.
Qed.

Lemma lookup_spread_None (rest o : PropsObject) (k : string) :
  rest !! k = None -> spread rest o !! k = o !! k.
Proof. intros Hk. by rewrite lookup_spread, Hk. Qed.

Lemma lookup_spread_Some (rest o : PropsObject) (k : string) (v : AttrValue) :
  rest !! k = Some v -> spread rest o !! k = Some v.
Proof. intros Hk. by rewrite lookup_spread, Hk. Qed.

Lemma lookup_set_attr (k j : string) (v : AttrValue) (o : PropsObject) :
  set_attr k v o !! j = if decide (k = j) then Some v else o !! j.
Proof. unfold set_attr. apply lookup_insert. Qed.

(** Reads one key of a props object written attribute by attribute. *)
Ltac read_attr :=
  repeat (rewrite lookup_set_attr; simpl);
  repeat case_decide; try congruence; try done.

Section DescendantFacts.

Context {Eff : Type} {Caller : Type -> Type}.

Implicit Types (context : TabsContextValue Eff).

Lemma isSelected_true value context :
  isSelected value context = true <-> ctx_value context = Some value.
Proof. unfold isSelected. apply bool_decide_eq_true. Qed.

Lemma isSelected_false value context :
  isSelected value context = false <-> ctx_value context <> Some value.
Proof. unfold isSelected. apply bool_decide_eq_false. Qed.

(** Per key, what the panel element carries: the caller's passthrough
    attribute when there is one, else the attribute TabsContent wrote. *)
Lemma TabsContent_Some context (props : TabsContentProps) forwardedRef :
  exists div,
    TabsContent (Caller := Caller) (Some context) props forwardedRef = inr div
    /\ ref div = forwardedRef
    /\ children div =
         Some (if isSelected (content_value props) context
               then content_children props else NodeFalse)
    /\ (forall v, contentProps props !! "id" = Some v ->
          attrs div !! "id" = Some v)
    /\ (contentProps props !! "id" = None ->
          attrs div !! "id" =
          Some (AStr (makeContentId (baseId context) (content_value props))))
    /\ (forall v, contentProps props !! "hidden" = Some v ->
          attrs div !! "hidden" = Some v)
    /\ (contentProps props !! "hidden" = None ->
          attrs div !! "hidden" =
          Some (ABool (negb (isSelected (content_value props) context))))
    /\ (forall v, contentProps props !! "aria-labelledby" = Some v ->
          attrs div !! "aria-labelledby" = Some v)
    /\ (contentProps props !! "aria-labelledby" = None ->
          attrs div !! "aria-labelledby" =
          Some (AStr (makeTriggerId (baseId context) (content_value props)))).
Proof.
  eexists. split; [reflexivity|]. simpl. unfold removeTabsScopeProps.
  repeat split.
  - intros v Hv. by apply lookup_spread_Some.
  - intros Hn. rewrite lookup_spread_None by done. read_attr.
  - intros v Hv. by apply lookup_spread_Some.
  - intros Hn. rewrite lookup_spread_None by done. read_attr.
  - intros v Hv. by apply lookup_spread_Some.
  - intros Hn. rewrite lookup_spread_None by done. read_attr.
Qed.

Lemma TabsTrigger_Some context (props : TabsTriggerProps Caller) forwardedRef :
  exists item,
    TabsTrigger (Some context) props forwardedRef = inr item
    /\ item_focusable item = negb (default false (trigger_disabled props))
    /\ item_active item = isSelected (trigger_value props) context
    /\ (forall v, triggerProps props !! "id" = Some v ->
          attrs (item_child item) !! "id" = Some v)
    /\ (triggerProps props !! "id" = None ->
          attrs (item_child item) !! "id" =
          Some (AStr (makeTriggerId (baseId context) (trigger_value props))))
    /\ (forall v, triggerProps props !! "aria-controls" = Some v ->
          attrs (item_child item) !! "aria-controls" = Some v)
    /\ (triggerProps props !! "aria-controls" = None ->
          attrs (item_child item) !! "aria-controls" =
          Some (AStr (makeContentId (baseId context) (trigger_value props)))).
Proof.
  eexists. split; [reflexivity|]. simpl. unfold removeTabsScopeProps.
  repeat split.
  - intros v Hv. by apply lookup_spread_Some.
  - intros Hn. rewrite lookup_spread_None by done. read_attr.
  - intros v Hv. by apply lookup_spread_Some.
  - intros Hn. rewrite lookup_spread_None by done. read_attr.
Qed.

End DescendantFacts.

(** ** Selection *)

Section SelectionFacts.

Context {Eff : Type} {Caller : Type -> Type}.

Implicit Types (context : TabsContextValue Eff) (panels : list TabsContentProps).

Lemma selected_panels_value context panels p :
  p ∈ selected_panels context panels ->
  ctx_value context = Some (content_value p).
Proof.
  unfold selected_panels. intros Hp.
  apply list_elem_of_filter in Hp as [Hsel _].
  by apply isSelected_true.
Qed.

Lemma selected_panels_absent context panels :
  (forall p, p ∈ panels -> ctx_value context <> Some (content_value p)) ->
  selected_panels context panels = [].
Proof.
  unfold selected_panels. induction panels as [|q panels IH]; intros Hall.
  - reflexivity.
  - rewrite filter_cons. destruct (decide _) as [Hq|Hq].
    + apply isSelected_true in Hq. exfalso.
      apply (Hall q); [apply list_elem_of_here | exact Hq].
    + apply IH. intros p Hp. apply Hall. by apply list_elem_of_further.
Qed.

Lemma selected_panels_NoDup context panels :
  NoDup (content_value <$> panels) ->
  length (selected_panels context panels) <= 1.
Proof.
  induction panels as [|q panels IH]; intros Hnd.
  - simpl. lia.
  - rewrite fmap_cons in Hnd. apply NoDup_cons in Hnd as [Hq Hnd].
    unfold selected_panels. rewrite filter_cons.
    destruct (decide _) as [Hsel|Hsel].
    + apply isSelected_true in Hsel.
      fold (selected_panels context panels).
      rewrite selected_panels_absent; [simpl; lia|].
      intros p Hp Heq. apply Hq.
      assert (content_value q = content_value p) as -> by congruence.
      apply list_elem_of_fmap. by exists p.
    + by apply IH.
Qed.

(** C1 (amended).  Under one context a mounted panel is selected exactly
    when its value equals the selection the context publishes, and every
    other panel is inactive and renders nothing; all selected panels share
    that one value, so among panels with pairwise distinct values at most
    one is selected. *)
Theorem TabsContent_selection_exclusive context panels :
  (forall p, p ∈ panels ->
     (isSelected (content_value p) context = true
        <-> ctx_value context = Some (content_value p))
     /\ (ctx_value context <> Some (content_value p) ->
           isSelected (content_value p) context = false
           /\ forall forwardedRef, exists div,
                TabsContent (Caller := Caller) (Some context) p forwardedRef
                  = inr div
                /\ children div = Some NodeFalse))
  /\ (forall p q, p ∈ selected_panels context panels ->
        q ∈ selected_panels context panels ->
        content_value p = content_value q)
  /\ (NoDup (content_value <$> panels) ->
        length (selected_panels context panels) <= 1).
Proof.
  split; [|split].
  - intros p _. split; [apply isSelected_true|].
    intros Hne. apply isSelected_false in Hne. split; [exact Hne|].
    intros forwardedRef.
    destruct (TabsContent_Some (Caller := Caller) context p forwardedRef)
      as (div & Hdiv & _ & Hch & _).
    exists div. split; [exact Hdiv|]. by rewrite Hch, Hne.
  - intros p q Hp Hq.
    apply selected_panels_value in Hp, Hq. congruence.
  - apply selected_panels_NoDup.
Qed.

End SelectionFacts.

(** Three panels "a", "b", "c" under selection "a": one is selected. *)
Lemma TabsContent_selection_exclusive_witness :
  NoDup (content_value <$>
           [content_props "a" (NodeText "A") ∅; content_props "b" (NodeText "B") ∅;
            content_props "c" (NodeText "C") ∅])
  /\ length (selected_panels (context_x1 (Some "a") None)
               [content_props "a" (NodeText "A") ∅; content_props "b" (NodeText "B") ∅;
                content_props "c" (NodeText "C") ∅]) <= 1.
Proof.
  assert (NoDup (content_value <$>
           [content_props "a" (NodeText "A") ∅; content_props "b" (NodeText "B") ∅;
            content_props "c" (NodeText "C") ∅])) as Hnd.
  { apply (bool_decide_unpack _). vm_compute. exact I. }
  split; [exact Hnd|].
  exact (proj2 (proj2 (TabsContent_selection_exclusive (Caller := NoCaller)
                         (context_x1 (Some "a") None) _)) Hnd).
Defined.

(** Two mounted panels that carry the same value "a" are both selected under
    selection "a", and both render their children. *)
Lemma TabsContent_selection_two_selected :
  content_props "a" (NodeText "first") ∅ <> content_props "a" (NodeText "second") ∅
  /\ isSelected "a" (context_x1 (Some "a") None) = true
  /\ (exists div,
        TabsContent (Caller := NoCaller) (Some (context_x1 (Some "a") None))
          (content_props "a" (NodeText "first") ∅) None = inr div
        /\ children div = Some (NodeText "first"))
  /\ (exists div,
        TabsContent (Caller := NoCaller) (Some (context_x1 (Some "a") None))
          (content_props "a" (NodeText "second") ∅) None = inr div
        /\ children div = Some (NodeText "second"))
  /\ length (selected_panels (context_x1 (Some "a") None)
               [content_props "a" (NodeText "first") ∅;
                content_props "a" (NodeText "second") ∅]) = 2
  /\ ~ length (selected_panels (context_x1 (Some "a") None)
                 [content_props "a" (NodeText "first") ∅;
                  content_props "a" (NodeText "second") ∅]) <= 1.
Proof.
  split; [discriminate|]. split; [reflexivity|].
  split; [eexists; split; reflexivity|].
  split; [eexists; split; reflexivity|].
  assert (length (selected_panels (context_x1 (Some "a") None)
               [content_props "a" (NodeText "first") ∅;
                content_props "a" (NodeText "second") ∅]) = 2) as Hlen
    by reflexivity.
  split; [exact Hlen|]. rewrite Hlen. lia.
Qed.

(** ** Identifiers and what the panel shows *)

Section AttributeFacts.

Context {Eff : Type} {Caller : Type -> Type}.

Implicit Types (context : TabsContextValue Eff).

(** C2 (amended).  Both identifiers are the base id, the infix "-trigger-"
    or "-content-", and the value.  Under one context, for a trigger and a
    panel of the same value: unless the caller passes the trigger an [id] or
    the panel an [aria-labelledby] of their own, the panel's
    [aria-labelledby] is the trigger's [id]; unless the caller passes the
    trigger an [aria-controls] or the panel an [id] of their own, the
    trigger's [aria-controls] is the panel's [id]. *)
Theorem identifiers_cross_reference context
    (trigger : TabsTriggerProps Caller) (content : TabsContentProps)
    (triggerRef contentRef : Ref) :
  makeTriggerId (baseId context) (trigger_value trigger)
    = baseId context +:+ "-trigger-" +:+ trigger_value trigger
  /\ makeContentId (baseId context) (content_value content)
    = baseId context +:+ "-content-" +:+ content_value content
  /\ makeTriggerId "x1" "tab1" = "x1-trigger-tab1"
  /\ makeContentId "x1" "tab1" = "x1-content-tab1"
  /\ (trigger_value trigger = content_value content ->
      exists item div,
        TabsTrigger (Some context) trigger triggerRef = inr item
        /\ TabsContent (Caller := Caller) (Some context) content contentRef
             = inr div
        /\ (triggerProps trigger !! "id" = None ->
            contentProps content !! "aria-labelledby" = None ->
            attrs div !! "aria-labelledby" = attrs (item_child item) !! "id"
            /\ attrs (item_child item) !! "id" =
               Some (AStr (makeTriggerId (baseId context) (trigger_value trigger))))
        /\ (triggerProps trigger !! "aria-controls" = None ->
            contentProps content !! "id" = None ->
            attrs (item_child item) !! "aria-controls" = attrs div !! "id"
            /\ attrs div !! "id" =
               Some (AStr (makeContentId (baseId context) (content_value content))))).
Proof.
  repeat (split; [reflexivity|]).
  intros Hvalue.
  destruct (TabsTrigger_Some context trigger triggerRef)
    as (item & Hitem & _ & _ & _ & Hid & _ & Hcontrols).
  destruct (TabsContent_Some (Caller := Caller) context content contentRef)
    as (div & Hdiv & _ & _ & _ & Hcid & _ & _ & _ & Hlabel).
  exists item, div.
  split; [exact Hitem|]. split; [exact Hdiv|]. split.
  - intros Hn1 Hn2. split; [|exact (Hid Hn1)].
    rewrite (Hlabel Hn2), (Hid Hn1), Hvalue. reflexivity.
  - intros Hn1 Hn2. split; [|exact (Hcid Hn2)].
    rewrite (Hcontrols Hn1), (Hcid Hn2), Hvalue. reflexivity.
Qed.

(** C3 (amended).  A panel is always rendered.  When its value is not the
    selection it renders none of its children, when it is the selection it
    renders them; both hold whatever else the caller passes.  Unless the
    caller passes an [id] of their own the element carries the derived
    content id, and unless the caller passes a [hidden] of their own it is
    hidden exactly when it is not selected. *)
Theorem TabsContent_hidden_unless_selected context
    (props : TabsContentProps) (forwardedRef : Ref) :
  exists div,
    TabsContent (Caller := Caller) (Some context) props forwardedRef = inr div
    /\ (ctx_value context <> Some (content_value props) ->
          children div = Some NodeFalse)
    /\ (ctx_value context = Some (content_value props) ->
          children div = Some (content_children props))
    /\ (contentProps props !! "id" = None ->
          attrs div !! "id" =
          Some (AStr (makeContentId (baseId context) (content_value props))))
    /\ (contentProps props !! "hidden" = None ->
          (ctx_value context <> Some (content_value props) ->
             attrs div !! "hidden" = Some (ABool true))
          /\ (ctx_value context = Some (content_value props) ->
             attrs div !! "hidden" = Some (ABool false))).
Proof.
  destruct (TabsContent_Some (Caller := Caller) context props forwardedRef)
    as (div & Hdiv & _ & Hch & _ & Hid & _ & Hhidden & _).
  exists div. split; [exact Hdiv|].
  split; [|split; [|split; [exact Hid|]]].
  - intros Hne. apply isSelected_false in Hne. by rewrite Hch, Hne.
  - intros Heq. apply isSelected_true in Heq. by rewrite Hch, Heq.
  - intros Hnone. rewrite (Hhidden Hnone). split.
    + intros Hne. apply isSelected_false in Hne. by rewrite Hne.
    + intros Heq. apply isSelected_true in Heq. by rewrite Heq.
Qed.

End AttributeFacts.

(** Trigger and panel "tab1" of instance "x1", nothing passed through. *)
Lemma identifiers_cross_reference_witness :
  exists item div,
    TabsTrigger (Some (context_x1 (Some "tab1") None))
      (trigger_props "tab1" None ∅) None = inr item
    /\ TabsContent (Caller := NoCaller) (Some (context_x1 (Some "tab1") None))
         (content_props "tab1" (NodeText "one") ∅) None = inr div
    /\ attrs div !! "aria-labelledby" = Some (AStr "x1-trigger-tab1")
    /\ attrs (item_child item) !! "id" = Some (AStr "x1-trigger-tab1")
    /\ attrs (item_child item) !! "aria-controls" = Some (AStr "x1-content-tab1")
    /\ attrs div !! "id" = Some (AStr "x1-content-tab1").
Proof.
  destruct (identifiers_cross_reference (context_x1 (Some "tab1") None)
              (trigger_props "tab1" None ∅)
              (content_props "tab1" (NodeText "one") ∅) None None)
    as (_ & _ & _ & _ & H).
  destruct (H eq_refl) as (item & div & Hitem & Hdiv & Hlabel & Hcontrols).
  exists item, div.
  destruct (Hlabel eq_refl eq_refl) as [Hl Hid].
  destruct (Hcontrols eq_refl eq_refl) as [Hc Hcid].
  repeat split; try assumption.
  - rewrite Hl. exact Hid.
  - rewrite Hc. exact Hcid.
Defined.

(** A trigger that is passed an [id] of its own keeps it, and the panel of
    the same value still points at the derived trigger id. *)
Lemma identifiers_cross_reference_overridden :
  exists item div,
    TabsTrigger (Some (context_x1 (Some "tab1") None))
      (trigger_props "tab1" None {[ "id" := AStr "my-tab" ]}) None = inr item
    /\ TabsContent (Caller := NoCaller) (Some (context_x1 (Some "tab1") None))
         (content_props "tab1" (NodeText "one") ∅) None = inr div
    /\ attrs (item_child item) !! "id" = Some (AStr "my-tab")
    /\ attrs div !! "aria-labelledby" = Some (AStr "x1-trigger-tab1")
    /\ attrs div !! "aria-labelledby" <> attrs (item_child item) !! "id".
Proof.
  eexists _, _. split; [reflexivity|]. split; [reflexivity|].
  split; [vm_compute; reflexivity|].
  split; [vm_compute; reflexivity|].
  vm_compute. discriminate.
Qed.

(** Panel "b" under selection "a", nothing passed through: present, with
    its id, hidden, no children. *)
Lemma TabsContent_hidden_unless_selected_witness :
  exists div,
    TabsContent (Caller := NoCaller) (Some (context_x1 (Some "a") None))
      (content_props "b" (NodeText "B") ∅) None = inr div
    /\ children div = Some NodeFalse
    /\ attrs div !! "id" = Some (AStr "x1-content-b")
    /\ attrs div !! "hidden" = Some (ABool true).
Proof.
  destruct (TabsContent_hidden_unless_selected (Caller := NoCaller)
              (context_x1 (Some "a") None)
              (content_props "b" (NodeText "B") ∅) None)
    as (div & Hdiv & Hch & _ & Hid & Hhidden).
  exists div. split; [exact Hdiv|].
  split; [apply Hch; discriminate|].
  split; [exact (Hid eq_refl)|].
  apply (Hhidden eq_refl). discriminate.
Defined.

(** Panel "b" under selection "a", passed [hidden = false] and an [id] of its
    own: not selected, yet neither hidden nor under its derived id. *)
Lemma TabsContent_unselected_not_hidden :
  exists div,
    TabsContent (Caller := NoCaller) (Some (context_x1 (Some "a") None))
      (content_props "b" (NodeText "B")
         {[ "hidden" := ABool false; "id" := AStr "panel" ]}) None = inr div
    /\ ctx_value (context_x1 (Some "a") None) <> Some "b"
    /\ attrs div !! "hidden" = Some (ABool false)
    /\ attrs div !! "hidden" <> Some (ABool true)
    /\ attrs div !! "id" = Some (AStr "panel")
    /\ attrs div !! "id" <> Some (AStr (makeContentId "x1" "b")).
Proof.
  eexists. split; [reflexivity|]. split; [discriminate|].
  split; [vm_compute; reflexivity|].
  split; [vm_compute; discriminate|].
  split; [vm_compute; reflexivity|].
  vm_compute; discriminate.
Qed.

(** ** The three interaction paths of a trigger *)

Section TriggerFacts.

Context {Eff : Type} {Caller : Type -> Type}.

Implicit Types (context : TabsContextValue Eff) (props : TabsTriggerProps Caller).

Lemma key_is_Space_or_Enter (event : KeyboardEvent) :
  String.eqb (key event) " " || String.eqb (key event) "Enter" = true
  <-> key event = " " \/ key event = "Enter".
Proof.
  rewrite orb_true_iff, !String.eqb_eq. reflexivity.
Qed.

Lemma button_is_primary_without_control (event : MouseEvent) :
  Z.eqb (button event) 0 && Bool.eqb (ctrlKey event) false = true
  <-> button event = 0%Z /\ ctrlKey event = false.
Proof.
  rewrite andb_true_iff, Z.eqb_eq, Bool.eqb_true_iff. reflexivity.
Qed.

(** C4.  On a trigger that is not disabled, the handler TabsTrigger installs
    for focus calls the context's change callback, once and with the
    trigger's value, exactly when the trigger is not selected and the
    activation mode is not manual; otherwise, and so always in manual mode,
    it calls nothing. *)
Theorem TabsTrigger_onFocus_activates context props (forwardedRef : Ref) :
  default false (trigger_disabled props) = false ->
  exists item handler,
    TabsTrigger (Some context) props forwardedRef = inr item
    /\ onFocus (item_child item) = Some handler
    /\ originalEventHandler handler = trigger_onFocus props
    /\ forall event : FocusEvent,
         (ourEventHandler handler event
            = [onValueChange context (trigger_value props)]
          <-> ctx_value context <> Some (trigger_value props)
              /\ activationMode context <> Some manual)
         /\ (~ (ctx_value context <> Some (trigger_value props)
                /\ activationMode context <> Some manual) ->
             ourEventHandler handler event = [])
         /\ (activationMode context = Some manual ->
             ourEventHandler handler event = []).
Proof.
  intros Henabled. eexists _, _.
  split; [reflexivity|]. split; [reflexivity|]. split; [reflexivity|].
  intros event. simpl. rewrite Henabled. unfold useCallbackRef, isSelected.
  destruct (decide (ctx_value context = Some (trigger_value props))) as [Hsel|Hsel];
    destruct (decide (activationMode context = Some manual)) as [Hman|Hman].
  all: rewrite ?(bool_decide_eq_true_2 _ Hsel), ?(bool_decide_eq_false_2 _ Hsel),
         ?(bool_decide_eq_true_2 _ Hman), ?(bool_decide_eq_false_2 _ Hman); simpl.
  all: repeat split; try done; try tauto.
  all: intros; tauto.
Qed.

(** C5.  On a trigger with [disabled = true], none of the handlers
    TabsTrigger installs for key-down, mouse-down and focus calls the
    context's change callback, whatever the event, the selection and the
    activation mode. *)
Theorem TabsTrigger_disabled_never_activates context props (forwardedRef : Ref) :
  trigger_disabled props = Some true ->
  exists item keyDown mouseDown focus,
    TabsTrigger (Some context) props forwardedRef = inr item
    /\ item_focusable item = false
    /\ onKeyDown (item_child item) = Some keyDown
    /\ onMouseDown (item_child item) = Some mouseDown
    /\ onFocus (item_child item) = Some focus
    /\ (forall event, ourEventHandler keyDown event = [])
    /\ (forall event, ourEventHandler mouseDown event = [])
    /\ (forall event, ourEventHandler focus event = []).
Proof.
  intros Hdisabled. eexists _, _, _, _.
  split; [reflexivity|]. simpl. rewrite Hdisabled. simpl.
  split; [reflexivity|].
  split; [reflexivity|]. split; [reflexivity|]. split; [reflexivity|].
  simpl. repeat split; intros event; rewrite ?andb_false_r; reflexivity.
Qed.

(** C6.  On a trigger that is not disabled, the handler TabsTrigger installs
    for mouse-down calls the context's change callback, once and with the
    trigger's value, exactly when the button is the primary one (0) and the
    control key is not held; with another button or with control held it
    calls nothing. *)
Theorem TabsTrigger_onMouseDown_activates context props (forwardedRef : Ref) :
  default false (trigger_disabled props) = false ->
  exists item handler,
    TabsTrigger (Some context) props forwardedRef = inr item
    /\ onMouseDown (item_child item) = Some handler
    /\ originalEventHandler handler = trigger_onMouseDown props
    /\ forall event : MouseEvent,
         (ourEventHandler handler event
            = [onValueChange context (trigger_value props)]
          <-> button event = 0%Z /\ ctrlKey event = false)
         /\ (button event <> 0%Z \/ ctrlKey event = true ->
             ourEventHandler handler event = []).
Proof.
  intros Henabled. eexists _, _.
  split; [reflexivity|]. split; [reflexivity|]. split; [reflexivity|].
  intros event. simpl. rewrite Henabled. unfold useCallbackRef. simpl.
  pose proof (button_is_primary_without_control event) as Hcond.
  destruct (Z.eqb (button event) 0 && Bool.eqb (ctrlKey event) false).
  - split; [tauto|]. intros [Hb|Hc]; destruct Hcond as [Hcond _];
      destruct (Hcond eq_refl); congruence.
  - split; [|reflexivity]. split; [discriminate|].
    intros H. apply Hcond in H. discriminate.
Qed.

(** C7.  On a trigger that is not disabled, the handler TabsTrigger installs
    for key-down calls the context's change callback, once and with the
    trigger's value, exactly when the key is Space (" ") or "Enter"; for any
    other key it calls nothing. *)
Theorem TabsTrigger_onKeyDown_activates context props (forwardedRef : Ref) :
  default false (trigger_disabled props) = false ->
  exists item handler,
    TabsTrigger (Some context) props forwardedRef = inr item
    /\ onKeyDown (item_child item) = Some handler
    /\ originalEventHandler handler = trigger_onKeyDown props
    /\ forall event : KeyboardEvent,
         (ourEventHandler handler event
            = [onValueChange context (trigger_value props)]
          <-> key event = " " \/ key event = "Enter")
         /\ (~ (key event = " " \/ key event = "Enter") ->
             ourEventHandler handler event = []).
Proof.
  intros Henabled. eexists _, _.
  split; [reflexivity|]. split; [reflexivity|]. split; [reflexivity|].
  intros event. simpl. rewrite Henabled. unfold useCallbackRef. simpl.
  pose proof (key_is_Space_or_Enter event) as Hcond.
  destruct (String.eqb (key event) " " || String.eqb (key event) "Enter").
  - split; [tauto|]. intros Hne. exfalso. tauto.
  - split; [|reflexivity]. split; [discriminate|].
    intros H. apply Hcond in H. discriminate.
Qed.

End TriggerFacts.

(** Trigger "b" under selection "a", automatic activation: focus requests
    "b"; the same trigger in manual mode requests nothing. *)
Lemma TabsTrigger_onFocus_activates_witness :
  (exists item handler,
     TabsTrigger (Some (context_x1 (Some "a") (Some automatic)))
       (trigger_props "b" None ∅) None = inr item
     /\ onFocus (item_child item) = Some handler
     /\ ourEventHandler handler focus_event = ["b"])
  /\ (exists item handler,
        TabsTrigger (Some (context_x1 (Some "a") (Some manual)))
          (trigger_props "b" None ∅) None = inr item
        /\ onFocus (item_child item) = Some handler
        /\ ourEventHandler handler focus_event = []).
Proof.
  split.
  - destruct (TabsTrigger_onFocus_activates
                (context_x1 (Some "a") (Some automatic))
                (trigger_props "b" None ∅) None eq_refl)
      as (item & handler & Hitem & Hhandler & _ & Hevent).
    exists item, handler. split; [exact Hitem|]. split; [exact Hhandler|].
    apply (Hevent focus_event). split; discriminate.
  - destruct (TabsTrigger_onFocus_activates
                (context_x1 (Some "a") (Some manual))
                (trigger_props "b" None ∅) None eq_refl)
      as (item & handler & Hitem & Hhandler & _ & Hevent).
    exists item, handler. split; [exact Hitem|]. split; [exact Hhandler|].
    apply (Hevent focus_event). reflexivity.
Defined.

(** A disabled trigger "b" under selection "a", automatic activation. *)
Lemma TabsTrigger_disabled_never_activates_witness :
  exists item keyDown mouseDown focus,
    TabsTrigger (Some (context_x1 (Some "a") (Some automatic)))
      (trigger_props "b" (Some true) ∅) None = inr item
    /\ onKeyDown (item_child item) = Some keyDown
    /\ onMouseDown (item_child item) = Some mouseDown
    /\ onFocus (item_child item) = Some focus
    /\ ourEventHandler keyDown {| key := "Enter" |} = []
    /\ ourEventHandler mouseDown {| button := 0; ctrlKey := false |} = []
    /\ ourEventHandler focus focus_event = [].
Proof.
  destruct (TabsTrigger_disabled_never_activates
              (context_x1 (Some "a") (Some automatic))
              (trigger_props "b" (Some true) ∅) None eq_refl)
    as (item & keyDown & mouseDown & focus & Hitem & _ & Hk & Hm & Hf
        & Hkey & Hmouse & Hfocus).
  exists item, keyDown, mouseDown, focus.
  split; [exact Hitem|]. split; [exact Hk|]. split; [exact Hm|].
  split; [exact Hf|]. split; [apply Hkey|]. split; [apply Hmouse|apply Hfocus].
Defined.

(** Trigger "b": the primary button requests "b"; the secondary button, and
    the primary button with control held, request nothing. *)
Lemma TabsTrigger_onMouseDown_activates_witness :
  exists item handler,
    TabsTrigger (Some (context_x1 (Some "a") None))
      (trigger_props "b" None ∅) None = inr item
    /\ onMouseDown (item_child item) = Some handler
    /\ ourEventHandler handler {| button := 0; ctrlKey := false |} = ["b"]
    /\ ourEventHandler handler {| button := 2; ctrlKey := false |} = []
    /\ ourEventHandler handler {| button := 0; ctrlKey := true |} = [].
Proof.
  destruct (TabsTrigger_onMouseDown_activates (context_x1 (Some "a") None)
              (trigger_props "b" None ∅) None eq_refl)
    as (item & handler & Hitem & Hhandler & _ & Hevent).
  exists item, handler. split; [exact Hitem|]. split; [exact Hhandler|].
  split; [|split].
  - apply (Hevent {| button := 0; ctrlKey := false |}). split; reflexivity.
  - apply (Hevent {| button := 2; ctrlKey := false |}). left. discriminate.
  - apply (Hevent {| button := 0; ctrlKey := true |}). right. reflexivity.
Defined.

(** Trigger "b": Enter and Space request "b", Tab requests nothing. *)
Lemma TabsTrigger_onKeyDown_activates_witness :
  exists item handler,
    TabsTrigger (Some (context_x1 (Some "a") None))
      (trigger_props "b" None ∅) None = inr item
    /\ onKeyDown (item_child item) = Some handler
    /\ ourEventHandler handler {| key := "Enter" |} = ["b"]
    /\ ourEventHandler handler {| key := " " |} = ["b"]
    /\ ourEventHandler handler {| key := "Tab" |} = [].
Proof.
  destruct (TabsTrigger_onKeyDown_activates (context_x1 (Some "a") None)
              (trigger_props "b" None ∅) None eq_refl)
    as (item & handler & Hitem & Hhandler & _ & Hevent).
  exists item, handler. split; [exact Hitem|]. split; [exact Hhandler|].
  split; [|split].
  - apply (Hevent {| key := "Enter" |}). right. reflexivity.
  - apply (Hevent {| key := " " |}). left. reflexivity.
  - apply (Hevent {| key := "Tab" |}). intros [H|H]; discriminate H.
Defined.

(** ** The Root *)

Lemma dispatch_one {OwnerEff : Type} (hooks : TabsHooks)
    (call : SetState OwnerEff string) :
  dispatch hooks [call] =
  ({| useId_cell := useId_cell hooks;
      useState_cell := fst (call (useState_cell hooks)) |},
   snd (call (useState_cell hooks))).
Proof.
  unfold dispatch. simpl. destruct (call (useState_cell hooks)) as [cell notified].
  simpl. by rewrite app_nil_r.
Qed.

(** C8.  With an external value the Root publishes that value, whatever its
    cell holds; an activation request leaves the hooks as they were and only
    invokes the owner's callback with the requested value, so the published
    value changes only with the external value of a later render.  Without
    an external value the Root publishes its cell, seeded from the default
    value, and an activation request writes the requested value to the cell
    and invokes the same callback. *)
Theorem Tabs_controlled_or_uncontrolled {OwnerEff : Type} {Caller : Type -> Type}
    (props : TabsProps OwnerEff) (hooks : TabsHooks) (forwardedRef : Ref)
    (requested : string) :
  (forall external, tabs_value props = Some external ->
     ctx_value (provided (Tabs (Caller := Caller) props hooks forwardedRef))
       = Some external
     /\ dispatch hooks
          [onValueChange (provided (Tabs (Caller := Caller) props hooks forwardedRef))
             requested]
        = (hooks, invoke (tabs_onValueChange props) requested)
     /\ forall (later : TabsProps OwnerEff) rerenderRef,
          ctx_value (provided (Tabs (Caller := Caller) later hooks rerenderRef))
            = match tabs_value later with
              | Some value => Some value
              | None => useState_cell hooks
              end)
  /\ (tabs_value props = None ->
      ctx_value (provided (Tabs (Caller := Caller) props hooks forwardedRef))
        = useState_cell hooks
      /\ (forall freshId,
            ctx_value (provided (Tabs (Caller := Caller) props
                                   (Tabs_mount freshId props) forwardedRef))
              = tabs_defaultValue props)
      /\ dispatch hooks
           [onValueChange (provided (Tabs (Caller := Caller) props hooks forwardedRef))
              requested]
         = ({| useId_cell := useId_cell hooks; useState_cell := Some requested |},
            invoke (tabs_onValueChange props) requested)
      /\ forall rerenderRef,
           ctx_value (provided (Tabs (Caller := Caller) props
                        {| useId_cell := useId_cell hooks;
                           useState_cell := Some requested |} rerenderRef))
             = Some requested).
Proof.
  split.
  - intros external Hext. split; [|split].
    + unfold Tabs, useControllableState. simpl. by rewrite Hext.
    + rewrite dispatch_one. unfold Tabs, useControllableState. simpl.
      rewrite Hext. simpl. by destruct hooks.
    + intros later rerenderRef. unfold Tabs, useControllableState. simpl.
      by destruct (tabs_value later).
  - intros Hnone. split; [|split; [|split]].
    + unfold Tabs, useControllableState. simpl. by rewrite Hnone.
    + intros freshId. unfold Tabs, useControllableState. simpl.
      by rewrite Hnone.
    + rewrite dispatch_one. unfold Tabs, useControllableState. simpl.
      by rewrite Hnone.
    + intros rerenderRef. unfold Tabs, useControllableState. simpl.
      by rewrite Hnone.
Qed.

(** A Root controlled at "b" keeps publishing "b" when "a" is requested and
    tells its owner "a"; an uncontrolled Root seeded with "b" moves to "a". *)
Lemma Tabs_controlled_or_uncontrolled_witness :
  (ctx_value (provided (Tabs (Caller := NoCaller) (tabs_props (Some "b") None)
                          (Tabs_mount "x1" (tabs_props (Some "b") None)) None))
     = Some "b"
   /\ dispatch (Tabs_mount "x1" (tabs_props (Some "b") None))
        [onValueChange
           (provided (Tabs (Caller := NoCaller) (tabs_props (Some "b") None)
                        (Tabs_mount "x1" (tabs_props (Some "b") None)) None)) "a"]
      = (Tabs_mount "x1" (tabs_props (Some "b") None), ["a"]))
  /\ (dispatch (Tabs_mount "x1" (tabs_props None (Some "b")))
        [onValueChange
           (provided (Tabs (Caller := NoCaller) (tabs_props None (Some "b"))
                        (Tabs_mount "x1" (tabs_props None (Some "b"))) None)) "a"]
      = ({| useId_cell := "x1"; useState_cell := Some "a" |}, ["a"])).
Proof.
  destruct (Tabs_controlled_or_uncontrolled (Caller := NoCaller)
              (tabs_props (Some "b") None)
              (Tabs_mount "x1" (tabs_props (Some "b") None)) None "a")
    as [Hcontrolled _].
  destruct (Hcontrolled "b" eq_refl) as (Hvalue & Hdispatch & _).
  destruct (Tabs_controlled_or_uncontrolled (Caller := NoCaller)
              (tabs_props None (Some "b"))
              (Tabs_mount "x1" (tabs_props None (Some "b"))) None "a")
    as [_ Huncontrolled].
  destruct (Huncontrolled eq_refl) as (_ & _ & Hwrite & _).
  split; [split; [exact Hvalue | exact Hdispatch] | exact Hwrite].
Defined.

(** ** Outside a Root *)

(** C9.  Rendered with no enclosing Tabs, each of TabsList, TabsTrigger and
    TabsContent returns no element: the render raises an error that names
    the unit that was misused and "Tabs", the provider that was expected. *)
Theorem descendants_require_Tabs {Eff : Type} {Caller : Type -> Type}
    (list : TabsListProps) (trigger : TabsTriggerProps Caller)
    (content : TabsContentProps) (forwardedRef : Ref) :
  TabsList (Eff := Eff) (Caller := Caller) None list forwardedRef
    = inl (MustBeUsedWithin "TabsList" "Tabs")
  /\ TabsTrigger (Eff := Eff) None trigger forwardedRef
    = inl (MustBeUsedWithin "TabsTrigger" "Tabs")
  /\ TabsContent (Eff := Eff) (Caller := Caller) None content forwardedRef
    = inl (MustBeUsedWithin "TabsContent" "Tabs").
Proof. repeat split. Qed.

(** ** Activating what is already selected *)

(** C10.  On a trigger that is not disabled and whose value is the current
    selection, the key-down handler on Space or Enter and the mouse-down
    handler on the primary button without control still call the context's
    change callback with that value, while the focus handler calls nothing.
    Under a Root that publishes this selection and has an owner callback,
    such a call leaves the hooks as they were and invokes the owner's
    callback with the unchanged value. *)
Theorem TabsTrigger_reactivates_selected {Eff OwnerEff : Type}
    {Caller : Type -> Type} :
  (forall (context : TabsContextValue Eff) (props : TabsTriggerProps Caller)
          (forwardedRef : Ref),
     default false (trigger_disabled props) = false ->
     ctx_value context = Some (trigger_value props) ->
     exists item keyDown mouseDown focus,
       TabsTrigger (Some context) props forwardedRef = inr item
       /\ item_active item = true
       /\ onKeyDown (item_child item) = Some keyDown
       /\ onMouseDown (item_child item) = Some mouseDown
       /\ onFocus (item_child item) = Some focus
       /\ (forall event, key event = " " \/ key event = "Enter" ->
             ourEventHandler keyDown event
               = [onValueChange context (trigger_value props)])
       /\ (forall event, button event = 0%Z -> ctrlKey event = false ->
             ourEventHandler mouseDown event
               = [onValueChange context (trigger_value props)])
       /\ (forall event, ourEventHandler focus event = []))
  /\ (forall (tabs : TabsProps OwnerEff) (hooks : TabsHooks) (rootRef : Ref)
             (notify : string -> OwnerEff) (value : string),
        tabs_onValueChange tabs = Some notify ->
        ctx_value (provided (Tabs (Caller := Caller) tabs hooks rootRef))
          = Some value ->
        dispatch hooks
          [onValueChange (provided (Tabs (Caller := Caller) tabs hooks rootRef))
             value]
          = (hooks, [notify value])).
Proof.
  split.
  - intros context props forwardedRef Henabled Hselected.
    eexists _, _, _, _. split; [reflexivity|]. simpl.
    rewrite Henabled. unfold useCallbackRef.
    assert (isSelected (trigger_value props) context = true) as ->
      by (by apply isSelected_true).
    split; [reflexivity|].
    split; [reflexivity|]. split; [reflexivity|]. split; [reflexivity|].
    simpl. split; [|split].
    + intros event Hkey. apply key_is_Space_or_Enter in Hkey. by rewrite Hkey.
    + intros event Hbutton Hctrl.
      assert (Z.eqb (button event) 0 && Bool.eqb (ctrlKey event) false = true)
        as -> by (apply button_is_primary_without_control; by split).
      reflexivity.
    + reflexivity.
  - intros tabs hooks rootRef notify value Hnotify Hselected.
    rewrite dispatch_one. revert Hselected.
    unfold Tabs, useControllableState. simpl. rewrite Hnotify.
    destruct (tabs_value tabs) as [external|]; simpl; intros Hselected.
    + by destruct hooks.
    + destruct hooks as [id cell]. simpl in *. by subst cell.
Qed.

(** Trigger "a" under a Root controlled at "a": Enter and a primary click
    both request "a" again, and the owner is told "a". *)
Lemma TabsTrigger_reactivates_selected_witness :
  (exists item keyDown mouseDown,
     TabsTrigger (Some (context_x1 (Some "a") None))
       (trigger_props "a" None ∅) None = inr item
     /\ onKeyDown (item_child item) = Some keyDown
     /\ onMouseDown (item_child item) = Some mouseDown
     /\ ourEventHandler keyDown {| key := "Enter" |} = ["a"]
     /\ ourEventHandler mouseDown {| button := 0; ctrlKey := false |} = ["a"])
  /\ dispatch (Tabs_mount "x1" (tabs_props (Some "a") None))
       [onValueChange
          (provided (Tabs (Caller := NoCaller) (tabs_props (Some "a") None)
                       (Tabs_mount "x1" (tabs_props (Some "a") None)) None)) "a"]
     = (Tabs_mount "x1" (tabs_props (Some "a") None), ["a"]).
Proof.
  destruct (TabsTrigger_reactivates_selected
              (Eff := string) (OwnerEff := string) (Caller := NoCaller))
    as [Htrigger Howner].
  split.
  - destruct (Htrigger (context_x1 (Some "a") None) (trigger_props "a" None ∅)
                None eq_refl eq_refl)
      as (item & keyDown & mouseDown & focus & Hitem & _ & Hk & Hm & _
          & Hkey & Hmouse & _).
    exists item, keyDown, mouseDown.
    split; [exact Hitem|]. split; [exact Hk|]. split; [exact Hm|]. split.
    + apply (Hkey {| key := "Enter" |}). right. reflexivity.
    + apply (Hmouse {| button := 0; ctrlKey := false |}); reflexivity.
  - exact (Howner (tabs_props (Some "a") None)
             (Tabs_mount "x1" (tabs_props (Some "a") None)) None
             (fun value => value) "a" eq_refl eq_refl).
Defined.

(** ** Two runs from section 8 of the spec *)

(** Uncontrolled default: a Root with default value "a" and panels "a", "b",
    "c" shows the children of "a" only. *)
Example uncontrolled_default_shows_a :
  let context :=
    provided (Tabs (Caller := NoCaller) (tabs_props None (Some "a"))
                (Tabs_mount "x1" (tabs_props None (Some "a"))) None) in
  exists a b c,
    TabsContent (Caller := NoCaller) (Some context)
      (content_props "a" (NodeText "A") ∅) None = inr a
    /\ TabsContent (Caller := NoCaller) (Some context)
         (content_props "b" (NodeText "B") ∅) None = inr b
    /\ TabsContent (Caller := NoCaller) (Some context)
         (content_props "c" (NodeText "C") ∅) None = inr c
    /\ children a = Some (NodeText "A")
    /\ children b = Some NodeFalse
    /\ children c = Some NodeFalse.
Proof. eexists _, _, _. repeat split. Qed.

(** Controlled pass-through: under a Root controlled at "b", a primary click
    on trigger "a" tells the owner "a", and the next render with the same
    props still selects "b". *)
Example controlled_click_keeps_b :
  let props := tabs_props (Some "b") None in
  let hooks := Tabs_mount "x1" props in
  let context := provided (Tabs (Caller := NoCaller) props hooks None) in
  exists item handler,
    TabsTrigger (Some context) (trigger_props "a" None ∅) None = inr item
    /\ onMouseDown (item_child item) = Some handler
    /\ dispatch hooks
         (ourEventHandler handler {| button := 0; ctrlKey := false |})
       = (hooks, ["a"])
    /\ ctx_value (provided (Tabs (Caller := NoCaller) props hooks None))
       = Some "b".
Proof. eexists _, _. repeat split. Qed.

(** * Further facts about Tabs.tsx *)

(** ** Identifiers within and across instances *)

Lemma append_assoc (s t u : string) : (s +:+ t) +:+ u = s +:+ (t +:+ u).
Proof.
  induction s as [|a s IH]; [reflexivity|].
  change (String a ((s +:+ t) +:+ u) = String a (s +:+ (t +:+ u))).
  by rewrite IH.
Qed.

(** X1.  Within one instance the identifiers tell the tabs apart: under one
    base id, two values with the same trigger id, or with the same content
    id, are the same value. *)
Theorem identifiers_injective_in_value (baseId value1 value2 : string) :
  (makeTriggerId baseId value1 = makeTriggerId baseId value2 -> value1 = value2)
  /\ (makeContentId baseId value1 = makeContentId baseId value2 -> value1 = value2).
Proof.
  unfold makeTriggerId, makeContentId.
  split; intros Heq; apply (inj (String.append baseId)) in Heq;
    by apply (inj (String.append _)) in Heq.
Qed.

Lemma identifiers_injective_in_value_witness :
  makeTriggerId "x1" "tab1" = makeTriggerId "x1" "tab1" /\ "tab1" = "tab1".
Proof.
  split; [reflexivity|].
  exact (proj1 (identifiers_injective_in_value "x1" "tab1" "tab1") eq_refl).
Defined.

(** X2.  Within one instance no trigger id is a content id, whatever the two
    values are. *)
Theorem trigger_id_is_no_content_id (baseId value1 value2 : string) :
  makeTriggerId baseId value1 <> makeContentId baseId value2.
Proof.
  unfold makeTriggerId, makeContentId. intros Heq.
  apply (inj (String.append baseId)) in Heq. discriminate Heq.
Qed.

(** X3.  The identifiers do not separate the base id from the value: a value
    that contains the infix yields the identifier of another instance.  The
    trigger id of [v-trigger-w] under [b] is the trigger id of [w] under
    [b-trigger-v], and the trigger id of [v-content-w] under [b] is the
    content id of [w] under [b-trigger-v]. *)
Theorem identifiers_collide_across_instances (b v w : string) :
  makeTriggerId b (v +:+ "-trigger-" +:+ w)
    = makeTriggerId (b +:+ "-trigger-" +:+ v) w
  /\ makeTriggerId b (v +:+ "-content-" +:+ w)
    = makeContentId (b +:+ "-trigger-" +:+ v) w
  /\ makeContentId b (v +:+ "-content-" +:+ w)
    = makeContentId (b +:+ "-content-" +:+ v) w.
Proof.
  unfold makeTriggerId, makeContentId.
  repeat split; by rewrite !append_assoc.
Qed.

(** ** What the caller passes through *)



(** ** What a trigger shows of its state *)

Section TriggerSurface.

Context {Eff : Type} {Caller : Type -> Type}.

Implicit Types (context : TabsContextValue Eff) (props : TabsTriggerProps Caller).

(** X5.  The roving focus item of a trigger is active exactly when the
    trigger's value is the selection and focusable exactly when the trigger
    is not disabled, whatever is passed through; being disabled does not
    change whether it is active.  Where the caller passes no attribute of
    the same name, [aria-selected] is that activity, [data-state] is
    "active" or "inactive" with it, and [aria-disabled] and [data-disabled]
    are [true] and the empty string on a disabled trigger and undefined on
    an enabled one. *)
Theorem TabsTrigger_state_surface context props (forwardedRef : Ref) :
  exists item,
    TabsTrigger (Some context) props forwardedRef = inr item
    /\ item_asChild item = true
    /\ (item_active item = true <-> ctx_value context = Some (trigger_value props))
    /\ (item_focusable item = true <-> default false (trigger_disabled props) = false)
    /\ (triggerProps props !! "aria-selected" = None ->
          attrs (item_child item) !! "aria-selected"
            = Some (ABool (item_active item)))
    /\ (triggerProps props !! "data-state" = None ->
          attrs (item_child item) !! "data-state"
            = Some (AStr (if item_active item then "active" else "inactive")))
    /\ (triggerProps props !! "aria-disabled" = None ->
          attrs (item_child item) !! "aria-disabled"
            = Some (if item_focusable item then AUndefined else ABool true))
    /\ (triggerProps props !! "data-disabled" = None ->
          attrs (item_child item) !! "data-disabled"
            = Some (if item_focusable item then AUndefined else AStr ""))
    /\ (triggerProps props !! "role" = None ->
          attrs (item_child item) !! "role" = Some (AStr "tab")).
Proof.
  eexists. split; [reflexivity|]. simpl. unfold removeTabsScopeProps.
  split; [reflexivity|]. split; [apply isSelected_true|].
  split; [by destruct (default false (trigger_disabled props))|].
  split; [|split; [|split; [|split]]]; intros Hnone;
    rewrite lookup_spread_None by done; read_attr.
  - by destruct (isSelected (trigger_value props) context).
  - by destruct (default false (trigger_disabled props)).
  - by destruct (default false (trigger_disabled props)).
Qed.

(** X7.  Whatever the event, the context and the props, disabled or not, each
    of the three handlers of a trigger calls the context's change callback at
    most once, and only ever with the trigger's own value; each is composed
    with the caller's handler for the same event. *)
Theorem TabsTrigger_calls_own_value_at_most_once context props (forwardedRef : Ref) :
  exists item keyDown mouseDown focus,
    TabsTrigger (Some context) props forwardedRef = inr item
    /\ onKeyDown (item_child item) = Some keyDown
    /\ onMouseDown (item_child item) = Some mouseDown
    /\ onFocus (item_child item) = Some focus
    /\ originalEventHandler keyDown = trigger_onKeyDown props
    /\ originalEventHandler mouseDown = trigger_onMouseDown props
    /\ originalEventHandler focus = trigger_onFocus props
    /\ (forall event,
          ourEventHandler keyDown event = []
          \/ ourEventHandler keyDown event
             = [onValueChange context (trigger_value props)])
    /\ (forall event,
          ourEventHandler mouseDown event = []
          \/ ourEventHandler mouseDown event
             = [onValueChange context (trigger_value props)])
    /\ (forall event,
          ourEventHandler focus event = []
          \/ ourEventHandler focus event
             = [onValueChange context (trigger_value props)]).
Proof.
  eexists _, _, _, _. split; [reflexivity|].
  do 6 (split; [reflexivity|]). simpl. unfold useCallbackRef.
  repeat split; intros event.
  - destruct (negb _ && _); auto.
  - destruct (negb _ && _ && _); auto.
  - destruct (negb _ && _ && _); auto.
Qed.

End TriggerSurface.

(** A disabled trigger "a" under selection "a": still active, not
    focusable, marked disabled. *)
Lemma TabsTrigger_state_surface_witness :
  exists item,
    TabsTrigger (Some (context_x1 (Some "a") None))
      (trigger_props "a" (Some true) ∅) None = inr item
    /\ item_active item = true
    /\ item_focusable item = false
    /\ attrs (item_child item) !! "aria-selected" = Some (ABool true)
    /\ attrs (item_child item) !! "data-state" = Some (AStr "active")
    /\ attrs (item_child item) !! "aria-disabled" = Some (ABool true)
    /\ attrs (item_child item) !! "data-disabled" = Some (AStr "").
Proof.
  destruct (TabsTrigger_state_surface (context_x1 (Some "a") None)
              (trigger_props "a" (Some true) ∅) None)
    as (item & Hitem & _ & Hactive & Hfocusable & Hsel & Hstate & Hdis & Hdata & _).
  assert (item_active item = true) as Ha by (by apply Hactive).
  assert (item_focusable item = false) as Hf.
  { destruct (item_focusable item); [|reflexivity].
    by destruct (proj1 Hfocusable eq_refl). }
  exists item. split; [exact Hitem|]. split; [exact Ha|]. split; [exact Hf|].
  rewrite (Hsel eq_refl), (Hstate eq_refl), (Hdis eq_refl), (Hdata eq_refl), Ha, Hf.
  repeat split.
Defined.

(** ** Triggers and panels under one context *)

Section Coherence.

Context {Eff : Type} {Caller : Type -> Type}.

Implicit Types (context : TabsContextValue Eff).

(** X6.  Under one context a trigger and a panel of the same value agree: the
    panel renders its children when the trigger is active and nothing when
    it is not, and where the caller passes neither element an attribute of
    the same name, they carry the same [data-state] and the panel's [hidden]
    is the negation of the trigger's [aria-selected].  A trigger and a panel
    of two different values are never active and shown together. *)
Theorem trigger_and_panel_agree context
    (trigger : TabsTriggerProps Caller) (content : TabsContentProps)
    (triggerRef contentRef : Ref) :
  exists item div,
    TabsTrigger (Some context) trigger triggerRef = inr item
    /\ TabsContent (Caller := Caller) (Some context) content contentRef = inr div
    /\ (trigger_value trigger = content_value content ->
          children div
            = Some (if item_active item then content_children content
                    else NodeFalse)
          /\ (triggerProps trigger !! "data-state" = None ->
              contentProps content !! "data-state" = None ->
              attrs (item_child item) !! "data-state" = attrs div !! "data-state")
          /\ (triggerProps trigger !! "aria-selected" = None ->
              contentProps content !! "hidden" = None ->
              attrs (item_child item) !! "aria-selected"
                = Some (ABool (item_active item))
              /\ attrs div !! "hidden" = Some (ABool (negb (item_active item)))))
    /\ (trigger_value trigger <> content_value content ->
          item_active item = true -> children div = Some NodeFalse).
Proof.
  eexists _, _. split; [reflexivity|]. split; [reflexivity|].
  simpl. unfold removeTabsScopeProps. split.
  - intros ->. split; [reflexivity|]. split.
    + intros Hn1 Hn2. rewrite !lookup_spread_None by done. read_attr.
    + intros Hn1 Hn2. rewrite !lookup_spread_None by done. split; read_attr.
  - intros Hne Hactive. apply isSelected_true in Hactive.
    assert (isSelected (content_value content) context = false) as ->;
      [|reflexivity].
    apply isSelected_false. congruence.
Qed.

(** X8.  When the context publishes no selection, or a selection that is the
    value of none of the mounted panels, no panel is selected and each
    renders nothing; with no selection no trigger is active, and the focus
    handler of every enabled trigger requests its value unless the mode is
    manual. *)
Theorem nothing_selected context (panels : list TabsContentProps) :
  (forall p, p ∈ panels -> ctx_value context <> Some (content_value p)) ->
  selected_panels context panels = []
  /\ (forall p forwardedRef, p ∈ panels ->
        exists div,
          TabsContent (Caller := Caller) (Some context) p forwardedRef = inr div
          /\ children div = Some NodeFalse)
  /\ (ctx_value context = None ->
      forall (trigger : TabsTriggerProps Caller) forwardedRef,
        exists item focus,
          TabsTrigger (Some context) trigger forwardedRef = inr item
          /\ item_active item = false
          /\ onFocus (item_child item) = Some focus
          /\ (default false (trigger_disabled trigger) = false ->
              activationMode context <> Some manual ->
              forall event,
                ourEventHandler focus event
                  = [onValueChange context (trigger_value trigger)])).
Proof.
  intros Habsent. split; [by apply selected_panels_absent|]. split.
  - intros p forwardedRef Hp. eexists. split; [reflexivity|]. simpl.
    by rewrite (proj2 (isSelected_false _ _) (Habsent p Hp)).
  - intros Hnone trigger forwardedRef. eexists _, _.
    split; [reflexivity|]. simpl.
    assert (isSelected (trigger_value trigger) context = false) as ->.
    { apply isSelected_false. by rewrite Hnone. }
    split; [reflexivity|]. split; [reflexivity|].
    intros -> Hmode event. simpl. unfold useCallbackRef.
    by rewrite (bool_decide_eq_false_2 _ Hmode).
Qed.

(** X11.  A panel that is not selected renders the same element whatever its
    children are: they take no part in the output. *)
Theorem unselected_panel_ignores_children context
    (props : TabsContentProps) (others : ReactNode) (forwardedRef : Ref) :
  ctx_value context <> Some (content_value props) ->
  TabsContent (Caller := Caller) (Some context) props forwardedRef
  = TabsContent (Caller := Caller) (Some context)
      {| content_value := content_value props;
         content_children := others;
         contentProps := contentProps props |} forwardedRef.
Proof.
  intros Hne. apply isSelected_false in Hne.
  unfold TabsContent. simpl. by rewrite Hne.
Qed.

(** X12.  The key-down and mouse-down handlers of a trigger look at neither
    the selection nor the activation mode: under two contexts whose change
    callback agrees on the trigger's value they call the same on every
    event. *)
Theorem key_and_mouse_ignore_selection_and_mode context context'
    (props : TabsTriggerProps Caller) (forwardedRef : Ref) :
  onValueChange context (trigger_value props)
    = onValueChange context' (trigger_value props) ->
  exists item item' keyDown keyDown' mouseDown mouseDown',
    TabsTrigger (Some context) props forwardedRef = inr item
    /\ TabsTrigger (Some context') props forwardedRef = inr item'
    /\ onKeyDown (item_child item) = Some keyDown
    /\ onKeyDown (item_child item') = Some keyDown'
    /\ onMouseDown (item_child item) = Some mouseDown
    /\ onMouseDown (item_child item') = Some mouseDown'
    /\ (forall event,
          ourEventHandler keyDown event = ourEventHandler keyDown' event)
    /\ (forall event,
          ourEventHandler mouseDown event = ourEventHandler mouseDown' event).
Proof.
  intros Hcallback. eexists _, _, _, _, _, _.
  do 6 (split; [reflexivity|]). simpl. unfold useCallbackRef.
  split; intros event; by rewrite Hcallback.
Qed.


End Coherence.

(** Trigger "a" and panel "a" under selection "a": active, shown, and of one
    state. *)
Lemma trigger_and_panel_agree_witness :
  exists item div,
    TabsTrigger (Some (context_x1 (Some "a") None))
      (trigger_props "a" None ∅) None = inr item
    /\ TabsContent (Caller := NoCaller) (Some (context_x1 (Some "a") None))
         (content_props "a" (NodeText "A") ∅) None = inr div
    /\ children div
       = Some (if item_active item then NodeText "A" else NodeFalse)
    /\ attrs (item_child item) !! "data-state" = attrs div !! "data-state"
    /\ attrs div !! "hidden" = Some (ABool (negb (item_active item))).
Proof.
  destruct (trigger_and_panel_agree (context_x1 (Some "a") None)
              (trigger_props "a" None ∅)
              (content_props "a" (NodeText "A") ∅) None None)
    as (item & div & Hitem & Hdiv & Hsame & _).
  destruct (Hsame eq_refl) as (Hchildren & Hstate & Hhidden).
  exists item, div. split; [exact Hitem|]. split; [exact Hdiv|].
  split; [exact Hchildren|]. split; [exact (Hstate eq_refl eq_refl)|].
  exact (proj2 (Hhidden eq_refl eq_refl)).
Defined.

(** Panels "a" and "b" under selection "z", the value of an orphaned
    trigger: none is selected. *)
Lemma nothing_selected_witness :
  selected_panels (context_x1 (Some "z") None)
    [content_props "a" (NodeText "A") ∅; content_props "b" (NodeText "B") ∅]
  = [].
Proof.
  refine (proj1 (nothing_selected (Caller := NoCaller)
                   (context_x1 (Some "z") None)
                   [content_props "a" (NodeText "A") ∅;
                    content_props "b" (NodeText "B") ∅] _)).
  intros p Hp. apply list_elem_of_In in Hp. simpl in Hp.
  destruct Hp as [<-|[<-|[]]]; discriminate.
Defined.

(** Panel "b" under selection "a" with two different contents. *)
Lemma unselected_panel_ignores_children_witness :
  TabsContent (Caller := NoCaller) (Some (context_x1 (Some "a") None))
    (content_props "b" (NodeText "B") ∅) None
  = TabsContent (Caller := NoCaller) (Some (context_x1 (Some "a") None))
      (content_props "b" (NodeText "other") ∅) None.
Proof.
  refine (unselected_panel_ignores_children (Caller := NoCaller)
            (context_x1 (Some "a") None)
            (content_props "b" (NodeText "B") ∅) (NodeText "other") None _).
  discriminate.
Defined.

(** Trigger "b" under selection "a" in automatic mode and under selection
    "b" in manual mode: Enter and a primary click do the same. *)
Lemma key_and_mouse_ignore_selection_and_mode_witness :
  exists item item' keyDown keyDown' mouseDown mouseDown',
    TabsTrigger (Some (context_x1 (Some "a") (Some automatic)))
      (trigger_props "b" None ∅) None = inr item
    /\ TabsTrigger (Some (context_x1 (Some "b") (Some manual)))
         (trigger_props "b" None ∅) None = inr item'
    /\ onKeyDown (item_child item) = Some keyDown
    /\ onKeyDown (item_child item') = Some keyDown'
    /\ onMouseDown (item_child item) = Some mouseDown
    /\ onMouseDown (item_child item') = Some mouseDown'
    /\ ourEventHandler keyDown {| key := "Enter" |}
       = ourEventHandler keyDown' {| key := "Enter" |}
    /\ ourEventHandler mouseDown {| button := 0; ctrlKey := false |}
       = ourEventHandler mouseDown' {| button := 0; ctrlKey := false |}.
Proof.
  destruct (key_and_mouse_ignore_selection_and_mode
              (context_x1 (Some "a") (Some automatic))
              (context_x1 (Some "b") (Some manual))
              (trigger_props "b" None ∅) None eq_refl)
    as (item & item' & k & k' & m & m' & H1 & H2 & H3 & H4 & H5 & H6 & Hk & Hm).
  exists item, item', k, k', m, m'.
  do 6 (split; [assumption|]). split; [apply Hk | apply Hm].
Defined.


(** ** From the Root to its descendants *)

Section RootToDescendants.

Context {OwnerEff : Type} {Caller : Type -> Type}.

(** X9.  The Root resolves orientation, direction and activation mode once,
    to horizontal, ltr and automatic where the caller gives none, and
    publishes them with the base id of the instance.  The roving focus group
    of a list below it gets that orientation and direction; where nothing of
    the same name is passed through, the list's [dir] names that direction
    and the [data-orientation] of a panel is that of the Root's own
    element, the name of that orientation. *)
Theorem Root_configuration_reaches_descendants
    (tabs : TabsProps OwnerEff) (hooks : TabsHooks) (rootRef : Ref)
    (list : TabsListProps) (content : TabsContentProps) (forwardedRef : Ref) :
  exists context group div,
    context = provided (Tabs (Caller := Caller) tabs hooks rootRef)
    /\ baseId context = useId_cell hooks
    /\ orientation context = Some (default horizontal (tabs_orientation tabs))
    /\ dir context = Some (default ltr (tabs_dir tabs))
    /\ activationMode context
       = Some (default automatic (tabs_activationMode tabs))
    /\ TabsList (Caller := Caller) (Some context) list forwardedRef = inr group
    /\ root_orientation group = Some (default horizontal (tabs_orientation tabs))
    /\ root_dir group = Some (default ltr (tabs_dir tabs))
    /\ TabsContent (Caller := Caller) (Some context) content forwardedRef = inr div
    /\ (listProps list !! "dir" = None ->
          attrs (root_child group) !! "dir"
            = Some (dir_attr (Some (default ltr (tabs_dir tabs)))))
    /\ (tabsProps tabs !! "data-orientation" = None ->
        contentProps content !! "data-orientation" = None ->
          attrs div !! "data-orientation"
            = attrs (provider_child (Tabs (Caller := Caller) tabs hooks rootRef))
                !! "data-orientation"
          /\ attrs div !! "data-orientation"
             = Some (orientation_attr
                       (Some (default horizontal (tabs_orientation tabs))))).
Proof.
  eexists _, _, _. split; [reflexivity|].
  unfold Tabs, useControllableState. simpl.
  do 8 (split; [reflexivity|]). simpl. unfold removeTabsScopeProps. split.
  - intros Hnone. rewrite lookup_spread_None by done. read_attr.
  - intros Hn1 Hn2. rewrite !lookup_spread_None by done. split; read_attr.
Qed.

(** X13.  Under a Root, whether focus activates is decided by the Root's
    [activationMode] prop alone: on an enabled trigger whose value is not
    the published selection, the focus handler requests the value when the
    prop is absent or automatic and requests nothing when it is manual. *)
Theorem Root_activationMode_governs_focus
    (tabs : TabsProps OwnerEff) (hooks : TabsHooks) (rootRef : Ref)
    (trigger : TabsTriggerProps Caller) (forwardedRef : Ref) :
  default false (trigger_disabled trigger) = false ->
  ctx_value (provided (Tabs (Caller := Caller) tabs hooks rootRef))
    <> Some (trigger_value trigger) ->
  exists item focus,
    TabsTrigger (Some (provided (Tabs (Caller := Caller) tabs hooks rootRef)))
      trigger forwardedRef = inr item
    /\ onFocus (item_child item) = Some focus
    /\ forall event,
         (tabs_activationMode tabs <> Some manual ->
            ourEventHandler focus event
              = [onValueChange
                   (provided (Tabs (Caller := Caller) tabs hooks rootRef))
                   (trigger_value trigger)])
         /\ (tabs_activationMode tabs = Some manual ->
               ourEventHandler focus event = []).
Proof.
  intros Henabled Hunselected. apply isSelected_false in Hunselected.
  assert (activationMode (provided (Tabs (Caller := Caller) tabs hooks rootRef))
          = Some (default automatic (tabs_activationMode tabs))) as Hmode
    by reflexivity.
  revert Hunselected Hmode.
  generalize (provided (Tabs (Caller := Caller) tabs hooks rootRef)).
  intros context Hunselected Hmode.
  eexists _, _. split; [reflexivity|]. split; [reflexivity|].
  intros event. simpl. rewrite Henabled, Hunselected, Hmode.
  unfold useCallbackRef.
  destruct (tabs_activationMode tabs) as [[]|]; simpl; split; done.
Qed.

End RootToDescendants.

(** A Root given no orientation and no direction, a list and a panel below
    it with nothing passed through. *)
Lemma Root_configuration_reaches_descendants_witness :
  exists context group div,
    context = provided (Tabs (Caller := NoCaller) (tabs_props None (Some "a"))
                          (Tabs_mount "x1" (tabs_props None (Some "a"))) None)
    /\ TabsList (Caller := NoCaller) (Some context)
         {| list_loop := None; listProps := ∅ |} None = inr group
    /\ TabsContent (Caller := NoCaller) (Some context)
         (content_props "a" (NodeText "A") ∅) None = inr div
    /\ root_orientation group = Some horizontal
    /\ root_dir group = Some ltr
    /\ attrs (root_child group) !! "dir" = Some (AStr "ltr")
    /\ attrs div !! "data-orientation" = Some (AStr "horizontal").
Proof.
  destruct (Root_configuration_reaches_descendants (Caller := NoCaller)
              (tabs_props None (Some "a"))
              (Tabs_mount "x1" (tabs_props None (Some "a"))) None
              {| list_loop := None; listProps := ∅ |}
              (content_props "a" (NodeText "A") ∅) None)
    as (context & group & div & Hcontext & _ & _ & _ & _ & Hgroup & Ho & Hd
        & Hdiv & Hdir & Horientation).
  exists context, group, div.
  split; [exact Hcontext|]. split; [exact Hgroup|]. split; [exact Hdiv|].
  split; [exact Ho|]. split; [exact Hd|].
  split; [exact (Hdir eq_refl)|].
  exact (proj2 (Horientation eq_refl eq_refl)).
Defined.

(** Trigger "b" under a Root seeded with "a": focus requests "b" when the
    Root names no activation mode. *)
Lemma Root_activationMode_governs_focus_witness :
  exists item focus,
    TabsTrigger
      (Some (provided (Tabs (Caller := NoCaller) (tabs_props None (Some "a"))
                         (Tabs_mount "x1" (tabs_props None (Some "a"))) None)))
      (trigger_props "b" None ∅) None = inr item
    /\ onFocus (item_child item) = Some focus
    /\ dispatch (Tabs_mount "x1" (tabs_props None (Some "a")))
         (ourEventHandler focus focus_event)
       = ({| useId_cell := "x1"; useState_cell := Some "b" |}, ["b"]).
Proof.
  assert (ctx_value
            (provided (Tabs (Caller := NoCaller) (tabs_props None (Some "a"))
                         (Tabs_mount "x1" (tabs_props None (Some "a"))) None))
          <> Some "b") as Hunselected by discriminate.
  destruct (Root_activationMode_governs_focus (Caller := NoCaller)
              (tabs_props None (Some "a"))
              (Tabs_mount "x1" (tabs_props None (Some "a"))) None
              (trigger_props "b" None ∅) None eq_refl Hunselected)
    as (item & focus & Hitem & Hfocus & Hevent).
  exists item, focus. split; [exact Hitem|]. split; [exact Hfocus|].
  rewrite (proj1 (Hevent focus_event)) by discriminate. reflexivity.
Defined.

(** ** What a panel shows of its state *)

(** X14.  A panel installs no handler of its own.  Where the caller passes no
    attribute of the same name, its role is "tabpanel", its [data-state] is
    "active" exactly when its value is the selection and "inactive"
    otherwise, and its [tabIndex] is 0 whether it is selected or hidden. *)
Theorem TabsContent_state_surface {Eff : Type} {Caller : Type -> Type}
    (context : TabsContextValue Eff) (props : TabsContentProps)
    (forwardedRef : Ref) :
  exists div,
    TabsContent (Caller := Caller) (Some context) props forwardedRef = inr div
    /\ onKeyDown div = None /\ onMouseDown div = None /\ onFocus div = None
    /\ (contentProps props !! "role" = None ->
          attrs div !! "role" = Some (AStr "tabpanel"))
    /\ (contentProps props !! "tabIndex" = None ->
          attrs div !! "tabIndex" = Some (ANum 0))
    /\ (contentProps props !! "data-state" = None ->
          (ctx_value context = Some (content_value props) ->
             attrs div !! "data-state" = Some (AStr "active"))
          /\ (ctx_value context <> Some (content_value props) ->
                attrs div !! "data-state" = Some (AStr "inactive"))).
Proof.
  eexists. split; [reflexivity|]. simpl. unfold removeTabsScopeProps.
  do 3 (split; [reflexivity|]).
  split; [|split]; intros Hnone; rewrite lookup_spread_None by done.
  - read_attr.
  - read_attr.
  - split; intros Hsel.
    + apply isSelected_true in Hsel. read_attr. by rewrite Hsel.
    + apply isSelected_false in Hsel. read_attr. by rewrite Hsel.
Qed.

(** The hidden panel "b" under selection "a" is still a tab stop. *)
Lemma TabsContent_state_surface_witness :
  exists div,
    TabsContent (Caller := NoCaller) (Some (context_x1 (Some "a") None))
      (content_props "b" (NodeText "B") ∅) None = inr div
    /\ attrs div !! "role" = Some (AStr "tabpanel")
    /\ attrs div !! "tabIndex" = Some (ANum 0)
    /\ attrs div !! "data-state" = Some (AStr "inactive").
Proof.
  destruct (TabsContent_state_surface (Caller := NoCaller)
              (context_x1 (Some "a") None)
              (content_props "b" (NodeText "B") ∅) None)
    as (div & Hdiv & _ & _ & _ & Hrole & Htab & Hstate).
  exists div. split; [exact Hdiv|]. split; [exact (Hrole eq_refl)|].
  split; [exact (Htab eq_refl)|].
  apply (Hstate eq_refl). discriminate.
Defined.
